(** * wayland-protocols-jni: the interop shim of bongocat-platform-linux

    A shallow embedding of [native/wayland-protocols-jni.c].  The unit exports
    seven functions: four accessors that return the address of a protocol
    interface descriptor, and three fixed-arity wrappers around constructor
    calls of the Wayland client library.

    The unit computes nothing of its own; what can be said about it is which
    actions it performs on its surroundings, with which arguments, and what it
    hands back.  Each C function is therefore embedded as a small program over
    an alphabet of actions, and run against an arbitrary environment that
    stands for the client library, the process memory and the kernel. *)

From Stdlib Require Import ZArith List String Lia.
Import ListNotations.
Local Open Scope Z_scope.

(** ** Machine values *)

(** A pointer is its address.  [NULL] is address zero. *)
Definition ptr : Type := Z.
Definition NULL : ptr := 0.

(** The values of an [int32_t] parameter ([size], [offset], [width],
    [height], [stride]).  The unit does no arithmetic, so no value ever
    wraps. *)
Definition int32_t_ok (z : Z) : bool := (-2147483648 <=? z) && (z <=? 2147483647).

(** ** The linked image *)

(** The four descriptor objects the unit declares [extern] (lines 13-16).
    They are defined by the generated protocol code. *)
Inductive wl_interface_symbol : Type :=
| zwlr_layer_shell_v1_interface
| zwlr_layer_surface_v1_interface
| zxdg_output_manager_v1_interface
| zxdg_output_v1_interface.

(** Where the linker placed each of them.  Fixed once the image is loaded. *)
Class Linkage : Type := address_of : wl_interface_symbol -> ptr.

(** ** Actions and programs *)

(** The functions the unit calls but does not define.  The first is a
    [static inline] of the generated layer-shell header, the other two belong
    to [wayland-client.h].  Arguments are listed in the callee's order. *)
Inductive extcall : Type :=
| zwlr_layer_shell_v1_get_layer_surface
    (layer_shell surface output : ptr) (layer : Z) (namespace : ptr)
| wl_shm_create_pool (shm : ptr) (fd : Z) (size : Z)
| wl_shm_pool_create_buffer
    (pool : ptr) (offset width height stride : Z) (format : Z).

(** Everything a function of a C unit like this one could do to its
    surroundings.  [GetStatic] and [SetStatic] access objects with static
    storage that the unit itself defines. *)
Inductive action : Type :=
| Call (c : extcall)
| Deref (a : ptr)
| Assign (a : ptr) (v : Z)
| Close (fd : Z)
| Dup (fd : Z)
| GetStatic (x : string)
| SetStatic (x : string) (v : Z).

(** A function body: it returns a word, or performs an action and goes on
    with the answer. *)
Inductive prog : Type :=
| Return (v : Z)
| Do (a : action) (k : Z -> prog).

(** The unit's own objects with static storage, by name.  C zero-initialises
    them. *)
Definition statics : Type := string -> Z.
Definition zeroed : statics := fun _ => 0.
Definition set_static (cs : statics) (x : string) (v : Z) : statics :=
  fun y => if String.eqb x y then v else cs y.

(** What one invocation leaves behind. *)
Record outcome (World : Type) : Type := Outcome {
  returned : Z;
  statics_after : statics;
  world_after : World;
  performed : list action
}.
Arguments Outcome {World} _ _ _ _.
Arguments returned {World} _.
Arguments statics_after {World} _.
Arguments world_after {World} _.
Arguments performed {World} _.

Definition after {World : Type} (a : action) (o : outcome World) : outcome World :=
  Outcome (returned o) (statics_after o) (world_after o) (a :: performed o).

Section Run.
Context {World : Type}.

(** The surroundings: how the library, memory and kernel answer an action
    and what state they are left in. *)
Variable env : action -> World -> Z * World.

Fixpoint run (p : prog) (cs : statics) (w : World) : outcome World :=
  match p with
  | Return v => Outcome v cs w []
  | Do a k =>
      match a with
      | GetStatic x => after a (run (k (cs x)) cs w)
      | SetStatic x v => after a (run (k 0) (set_static cs x v) w)
      | _ => let rw := env a w in after a (run (k (fst rw)) cs (snd rw))
      end
  end.

(** The outcome of doing nothing but the call [c] and returning its
    result. *)
Definition forwarded (c : extcall) (cs : statics) (w : World) : outcome World :=
  Outcome (fst (env (Call c) w)) cs (snd (env (Call c) w)) [Call c].
End Run.

(** ** The translation unit *)

Section TranslationUnit.
Context {L : Linkage}.

(** Lines 19-37. *)
Definition get_zwlr_layer_shell_v1_interface : prog :=
  Return (address_of zwlr_layer_shell_v1_interface).

Definition get_zwlr_layer_surface_v1_interface : prog :=
  Return (address_of zwlr_layer_surface_v1_interface).

Definition get_zxdg_output_manager_v1_interface : prog :=
  Return (address_of zxdg_output_manager_v1_interface).

Definition get_zxdg_output_v1_interface : prog :=
  Return (address_of zxdg_output_v1_interface).
End TranslationUnit.

(** Lines 41-56. *)
Definition create_layer_surface
    (layer_shell surface output : ptr) (layer : Z) (namespace : ptr) : prog :=
  Do (Call (zwlr_layer_shell_v1_get_layer_surface
              layer_shell surface output layer namespace))
     Return.

(** Lines 60-67. *)
Definition create_shm_pool (shm : ptr) (fd : Z) (size : Z) : prog :=
  Do (Call (wl_shm_create_pool shm fd size)) Return.

(** Lines 71-81. *)
Definition create_buffer_from_pool
    (pool : ptr) (offset width height stride : Z) (format : Z) : prog :=
  Do (Call (wl_shm_pool_create_buffer pool offset width height stride format))
     Return.

(** ** The exported symbol table *)

(** One invocation of one of the seven symbols with default visibility. *)
Inductive invocation : Type :=
| invoke_get_zwlr_layer_shell_v1_interface
| invoke_get_zwlr_layer_surface_v1_interface
| invoke_get_zxdg_output_manager_v1_interface
| invoke_get_zxdg_output_v1_interface
| invoke_create_layer_surface
    (layer_shell surface output : ptr) (layer : Z) (namespace : ptr)
| invoke_create_shm_pool (shm : ptr) (fd : Z) (size : Z)
| invoke_create_buffer_from_pool
    (pool : ptr) (offset width height stride : Z) (format : Z).

Definition body {L : Linkage} (i : invocation) : prog :=
  match i with
  | invoke_get_zwlr_layer_shell_v1_interface => get_zwlr_layer_shell_v1_interface
  | invoke_get_zwlr_layer_surface_v1_interface => get_zwlr_layer_surface_v1_interface
  | invoke_get_zxdg_output_manager_v1_interface => get_zxdg_output_manager_v1_interface
  | invoke_get_zxdg_output_v1_interface => get_zxdg_output_v1_interface
  | invoke_create_layer_surface layer_shell surface output layer namespace =>
      create_layer_surface layer_shell surface output layer namespace
  | invoke_create_shm_pool shm fd size => create_shm_pool shm fd size
  | invoke_create_buffer_from_pool pool offset width height stride format =>
      create_buffer_from_pool pool offset width height stride format
  end.

(** ** Shapes of body *)

(** The two shapes a body of this unit takes: it returns the address of a
    descriptor, or it makes one library call and returns the answer. *)
Inductive shape {L : Linkage} : prog -> Type :=
| shape_descriptor (s : wl_interface_symbol) : shape (Return (address_of s))
| shape_wrapper (c : extcall) : shape (Do (Call c) Return).

(** A pointer argument as a caller may pass it: null, or some address. *)
Definition or_null (null : bool) (p : ptr) : ptr := if null then NULL else p.

(** ** Sessions *)

(** Several invocations one after another, as a caller makes them: the
    statics and the surroundings left by one are those the next starts
    from.  Yields the values returned, in order. *)
Fixpoint session {L : Linkage} {World : Type} (env : action -> World -> Z * World)
    (calls : list invocation) (cs : statics) (w : World)
  : list Z * (statics * World) :=
  match calls with
  | [] => ([], (cs, w))
  | i :: rest =>
      let o := run env (body i) cs w in
      let r := session env rest (statics_after o) (world_after o) in
      (returned o :: fst r, snd r)
  end.

(** The same series as the specification reads it, every call stateless and
    independent: each invocation starts from zeroed statics and only the
    surroundings carry over. *)
Fixpoint independent {L : Linkage} {World : Type} (env : action -> World -> Z * World)
    (calls : list invocation) (w : World) : list Z * World :=
  match calls with
  | [] => ([], w)
  | i :: rest =>
      let o := run env (body i) zeroed w in
      let r := independent env rest (world_after o) in
      (returned o :: fst r, snd r)
  end.

(** The three exports defined at lines 41-81, as opposed to the four
    accessors of lines 19-37. *)
Definition is_wrapper (i : invocation) : bool :=
  match i with
  | invoke_create_layer_surface _ _ _ _ _ => true
  | invoke_create_shm_pool _ _ _ => true
  | invoke_create_buffer_from_pool _ _ _ _ _ _ => true
  | _ => false
  end.

(** Everything a series of invocations performed, in order. *)
Fixpoint session_performed {L : Linkage} {World : Type}
    (env : action -> World -> Z * World)
    (calls : list invocation) (cs : statics) (w : World) : list action :=
  match calls with
  | [] => []
  | i :: rest =>
      let o := run env (body i) cs w in
      performed o ++ session_performed env rest (statics_after o) (world_after o)
  end.

(** Of the values a series returned, those that came from wrappers. *)
Definition wrapper_results (calls : list invocation) (results : list Z) : list Z :=
  map snd (filter (fun ir => is_wrapper (fst ir)) (combine calls results)).

(** ** Fixtures *)

(** An image with the four descriptors laid out at consecutive addresses. *)
Definition example_layout : Linkage :=
  fun s =>
    match s with
    | zwlr_layer_shell_v1_interface => 4202496
    | zwlr_layer_surface_v1_interface => 4202536
    | zxdg_output_manager_v1_interface => 4202576
    | zxdg_output_v1_interface => 4202616
    end.

(** Surroundings that answer from a script: each action consumes the next
    scripted answer, and gets zero once the script has run out. *)
Definition scripted (a : action) (script : list Z) : Z * list Z :=
  match script with
  | [] => (0, [])
  | r :: rest => (r, rest)
  end.

(** * Properties *)

(** ** How the two shapes of body run *)

Section Shapes.
Context {World : Type}.
Variable env : action -> World -> Z * World.

Lemma run_Return (v : Z) (cs : statics) (w : World) :
  run env (Return v) cs w = Outcome v cs w [].
Proof. reflexivity. Qed.

Lemma run_Call_Return (c : extcall) (cs : statics) (w : World) :
  run env (Do (Call c) Return) cs w = forwarded env c cs w.
Proof. reflexivity. Qed.

Lemma forwarded_performed (c : extcall) (cs : statics) (w : World) (a : action) :
  In a (performed (forwarded env c cs w)) -> a = Call c.
Proof.
  simpl. intros [H | []]. symmetry. exact H.
Qed.
End Shapes.

(** Every exported body has one of the two shapes. *)
Lemma body_shape {L : Linkage} (i : invocation) : shape (body i).
Proof.
  destruct i; simpl; constructor.
Qed.

Lemma shape_performs_calls {L : Linkage} {World : Type}
    (env : action -> World -> Z * World) (p : prog) (cs : statics) (w : World) :
  shape p -> forall a, In a (performed (run env p cs w)) -> exists c, a = Call c.
Proof.
  intros [s | c] a H.
  - destruct H.
  - exists c. now apply (forwarded_performed env c cs w).
Qed.

Lemma shape_keeps_statics {L : Linkage} {World : Type}
    (env : action -> World -> Z * World) (p : prog) (cs : statics) (w : World) :
  shape p -> statics_after (run env p cs w) = cs.
Proof.
  intros [s | c]; reflexivity.
Qed.

Lemma shape_ignores_statics {L : Linkage} {World : Type}
    (env : action -> World -> Z * World) (p : prog) (cs cs' : statics) (w : World) :
  shape p ->
  returned (run env p cs w) = returned (run env p cs' w)
  /\ world_after (run env p cs w) = world_after (run env p cs' w)
  /\ performed (run env p cs w) = performed (run env p cs' w).
Proof.
  intros [s | c]; repeat split.
Qed.

(** ** The three wrappers *)

(** C1.  [create_layer_surface] is a pass-through: against any surroundings,
    from any state, it makes exactly one action, the call
    [zwlr_layer_shell_v1_get_layer_surface] on its own five arguments in the
    order received, returns what that call returned, and leaves the
    surroundings as that call left them and the statics as they were. *)
Theorem create_layer_surface_passes_through :
  forall (World : Type) (env : action -> World -> Z * World)
         (layer_shell surface output : ptr) (layer : Z) (namespace : ptr)
         (cs : statics) (w : World),
    run env (create_layer_surface layer_shell surface output layer namespace) cs w
    = forwarded env
        (zwlr_layer_shell_v1_get_layer_surface layer_shell surface output layer namespace)
        cs w.
Proof.
  intros. unfold create_layer_surface. apply run_Call_Return.
Qed.

(** C2.  [create_shm_pool] returns what [wl_shm_create_pool] returned on the
    same three arguments, and does nothing to the descriptor itself: the call
    is its only action, so it closes and duplicates no descriptor, and it
    keeps nothing in statics. *)
Theorem create_shm_pool_passes_through_keeps_fd :
  forall (World : Type) (env : action -> World -> Z * World)
         (shm : ptr) (fd size : Z) (cs : statics) (w : World),
    run env (create_shm_pool shm fd size) cs w
    = forwarded env (wl_shm_create_pool shm fd size) cs w
    /\ (forall d : Z,
          ~ In (Close d) (performed (run env (create_shm_pool shm fd size) cs w))
          /\ ~ In (Dup d) (performed (run env (create_shm_pool shm fd size) cs w)))
    /\ statics_after (run env (create_shm_pool shm fd size) cs w) = cs.
Proof.
  intros. unfold create_shm_pool. rewrite run_Call_Return.
  split; [reflexivity | split; [ | reflexivity]].
  intros d; split; intros H;
    apply forwarded_performed in H; discriminate H.
Qed.

(** C3.  [create_buffer_from_pool] checks no bounds.  Whatever the six
    arguments, so also when [offset + height * stride] exceeds the size the
    pool was declared with (a size the wrapper is never told), the six
    arguments go to [wl_shm_pool_create_buffer] unchanged and its result comes
    back; that call is all the wrapper does, so it raises nothing of its
    own. *)
Theorem create_buffer_from_pool_unchecked :
  forall (World : Type) (env : action -> World -> Z * World)
         (pool : ptr) (offset width height stride format : Z)
         (cs : statics) (w : World),
    run env (create_buffer_from_pool pool offset width height stride format) cs w
    = forwarded env
        (wl_shm_pool_create_buffer pool offset width height stride format) cs w.
Proof.
  intros. unfold create_buffer_from_pool. apply run_Call_Return.
Qed.

(** A 64 x 64 buffer of stride 256 asked of a pool declared with 4096 bytes:
    the request goes out as it is, and the library's refusal (null, from the
    script) comes back as it is. *)
Example create_buffer_from_pool_oversized :
  run scripted (create_buffer_from_pool 24 0 64 64 256 0) zeroed [NULL; 7]
  = Outcome NULL zeroed [7] [Call (wl_shm_pool_create_buffer 24 0 64 64 256 0)].
Proof. reflexivity. Qed.

(** ** The four descriptor accessors *)

(** C4.  In an image whose descriptors sit at non-null addresses (as the
    address of any C object does), each accessor returns the address of the
    descriptor it is named after, which is not null, and returns that same
    address whichever invocation it is: whatever the surroundings, their
    state and the statics at the time. *)
Theorem descriptor_accessors_stable_nonnull :
  forall (L : Linkage),
    (forall s : wl_interface_symbol, address_of s <> NULL) ->
    forall (World : Type) (env env' : action -> World -> Z * World)
           (cs cs' : statics) (w w' : World),
      (returned (run env get_zwlr_layer_shell_v1_interface cs w)
         = address_of zwlr_layer_shell_v1_interface
       /\ returned (run env' get_zwlr_layer_shell_v1_interface cs' w')
         = returned (run env get_zwlr_layer_shell_v1_interface cs w)
       /\ returned (run env get_zwlr_layer_shell_v1_interface cs w) <> NULL)
      /\ (returned (run env get_zwlr_layer_surface_v1_interface cs w)
         = address_of zwlr_layer_surface_v1_interface
       /\ returned (run env' get_zwlr_layer_surface_v1_interface cs' w')
         = returned (run env get_zwlr_layer_surface_v1_interface cs w)
       /\ returned (run env get_zwlr_layer_surface_v1_interface cs w) <> NULL)
      /\ (returned (run env get_zxdg_output_manager_v1_interface cs w)
         = address_of zxdg_output_manager_v1_interface
       /\ returned (run env' get_zxdg_output_manager_v1_interface cs' w')
         = returned (run env get_zxdg_output_manager_v1_interface cs w)
       /\ returned (run env get_zxdg_output_manager_v1_interface cs w) <> NULL)
      /\ (returned (run env get_zxdg_output_v1_interface cs w)
         = address_of zxdg_output_v1_interface
       /\ returned (run env' get_zxdg_output_v1_interface cs' w')
         = returned (run env get_zxdg_output_v1_interface cs w)
       /\ returned (run env get_zxdg_output_v1_interface cs w) <> NULL).
Proof.
  intros L Hnonnull World env env' cs cs' w w'.
  unfold get_zwlr_layer_shell_v1_interface, get_zwlr_layer_surface_v1_interface,
    get_zxdg_output_manager_v1_interface, get_zxdg_output_v1_interface.
  rewrite !run_Return. simpl.
  repeat split; apply Hnonnull.
Qed.

(** C5.  The accessors take no argument, perform no action and change
    nothing: each run ends, in the state it started in, with the address of
    its descriptor as result. *)
Theorem descriptor_accessors_pure :
  forall (L : Linkage) (World : Type) (env : action -> World -> Z * World)
         (cs : statics) (w : World),
    run env get_zwlr_layer_shell_v1_interface cs w
      = Outcome (address_of zwlr_layer_shell_v1_interface) cs w []
    /\ run env get_zwlr_layer_surface_v1_interface cs w
      = Outcome (address_of zwlr_layer_surface_v1_interface) cs w []
    /\ run env get_zxdg_output_manager_v1_interface cs w
      = Outcome (address_of zxdg_output_manager_v1_interface) cs w []
    /\ run env get_zxdg_output_v1_interface cs w
      = Outcome (address_of zxdg_output_v1_interface) cs w [].
Proof.
  intros. repeat split.
Qed.

(** C8.  In an image that places distinct descriptors at distinct addresses
    (as C does distinct objects), no two of the four accessors return the same
    pointer, whenever and wherever each is invoked. *)
Theorem descriptor_accessors_pairwise_distinct :
  forall (L : Linkage),
    (forall s t : wl_interface_symbol, address_of s = address_of t -> s = t) ->
    forall (World : Type) (env env' : action -> World -> Z * World)
           (cs cs' : statics) (w w' : World),
      returned (run env get_zwlr_layer_shell_v1_interface cs w)
        <> returned (run env' get_zwlr_layer_surface_v1_interface cs' w')
      /\ returned (run env get_zwlr_layer_shell_v1_interface cs w)
        <> returned (run env' get_zxdg_output_manager_v1_interface cs' w')
      /\ returned (run env get_zwlr_layer_shell_v1_interface cs w)
        <> returned (run env' get_zxdg_output_v1_interface cs' w')
      /\ returned (run env get_zwlr_layer_surface_v1_interface cs w)
        <> returned (run env' get_zxdg_output_manager_v1_interface cs' w')
      /\ returned (run env get_zwlr_layer_surface_v1_interface cs w)
        <> returned (run env' get_zxdg_output_v1_interface cs' w')
      /\ returned (run env get_zxdg_output_manager_v1_interface cs w)
        <> returned (run env' get_zxdg_output_v1_interface cs' w').
Proof.
  intros L Hdistinct World env env' cs cs' w w'.
  unfold get_zwlr_layer_shell_v1_interface, get_zwlr_layer_surface_v1_interface,
    get_zxdg_output_manager_v1_interface, get_zxdg_output_v1_interface.
  rewrite !run_Return. simpl.
  repeat split; intros H; apply Hdistinct in H; discriminate H.
Qed.

(** ** All seven exports *)

(** C6.  No export validates anything or fails on its own.  Each accessor
    invocation returns the address of its own descriptor, having done
    nothing.  Each wrapper invocation does one thing, the library call it
    wraps, on the very arguments the invocation was given, and returns
    exactly what that call answered: its result is null when, and only when,
    the library's answer was null, and the surroundings are as the call left
    them. *)
Theorem exports_add_no_failure :
  forall (L : Linkage) (World : Type) (env : action -> World -> Z * World)
         (i : invocation) (cs : statics) (w : World),
    match i with
    | invoke_get_zwlr_layer_shell_v1_interface =>
        run env (body i) cs w
        = Outcome (address_of zwlr_layer_shell_v1_interface) cs w []
    | invoke_get_zwlr_layer_surface_v1_interface =>
        run env (body i) cs w
        = Outcome (address_of zwlr_layer_surface_v1_interface) cs w []
    | invoke_get_zxdg_output_manager_v1_interface =>
        run env (body i) cs w
        = Outcome (address_of zxdg_output_manager_v1_interface) cs w []
    | invoke_get_zxdg_output_v1_interface =>
        run env (body i) cs w
        = Outcome (address_of zxdg_output_v1_interface) cs w []
    | invoke_create_layer_surface layer_shell surface output layer namespace =>
        run env (body i) cs w
        = forwarded env
            (zwlr_layer_shell_v1_get_layer_surface
               layer_shell surface output layer namespace) cs w
        /\ (returned (run env (body i) cs w) = NULL
            <-> fst (env (Call (zwlr_layer_shell_v1_get_layer_surface
                                  layer_shell surface output layer namespace)) w)
                = NULL)
    | invoke_create_shm_pool shm fd size =>
        run env (body i) cs w
        = forwarded env (wl_shm_create_pool shm fd size) cs w
        /\ (returned (run env (body i) cs w) = NULL
            <-> fst (env (Call (wl_shm_create_pool shm fd size)) w) = NULL)
    | invoke_create_buffer_from_pool pool offset width height stride format =>
        run env (body i) cs w
        = forwarded env
            (wl_shm_pool_create_buffer pool offset width height stride format) cs w
        /\ (returned (run env (body i) cs w) = NULL
            <-> fst (env (Call (wl_shm_pool_create_buffer
                                  pool offset width height stride format)) w)
                = NULL)
    end.
Proof.
  intros L World env i cs w.
  destruct i; simpl body.
  1-4: apply run_Return.
  all: split; [apply run_Call_Return | ].
  all: unfold create_layer_surface, create_shm_pool, create_buffer_from_pool;
    rewrite run_Call_Return; simpl; tauto.
Qed.

(** C7.  The unit has no state of its own.  An invocation neither reads nor
    writes a static: its result, its actions and what it does to the
    surroundings are the same whatever the statics hold, and it leaves them
    as they were.  Hence in any series of invocations each one behaves as if
    it were run on its own from zeroed statics, in the surroundings the
    library calls before it left: nothing passes from one invocation to a
    later one through the unit. *)
Theorem unit_holds_no_state :
  forall (L : Linkage) (World : Type) (env : action -> World -> Z * World),
    (forall (i : invocation) (cs cs' : statics) (w : World),
        statics_after (run env (body i) cs w) = cs
        /\ returned (run env (body i) cs w) = returned (run env (body i) cs' w)
        /\ world_after (run env (body i) cs w) = world_after (run env (body i) cs' w)
        /\ performed (run env (body i) cs w) = performed (run env (body i) cs' w)
        /\ (forall (x : string) (v : Z),
              ~ In (GetStatic x) (performed (run env (body i) cs w))
              /\ ~ In (SetStatic x v) (performed (run env (body i) cs w))))
    /\ (forall (calls : list invocation) (cs : statics) (w : World),
          fst (session env calls cs w) = fst (independent env calls w)
          /\ snd (snd (session env calls cs w)) = snd (independent env calls w)
          /\ fst (snd (session env calls cs w)) = cs).
Proof.
  intros L World env. split.
  - intros i cs cs' w.
    pose proof (body_shape i) as Hs.
    split; [now apply shape_keeps_statics | ].
    destruct (shape_ignores_statics env (body i) cs cs' w Hs) as (Hr & Hw & Hp).
    repeat split; try assumption;
      intros H; destruct (shape_performs_calls env (body i) cs w Hs _ H) as [c Hc];
      discriminate Hc.
  - induction calls as [ | i rest IH]; intros cs w.
    + repeat split.
    + simpl.
      pose proof (body_shape i) as Hs.
      rewrite (shape_keeps_statics env (body i) cs w Hs).
      destruct (shape_ignores_statics env (body i) cs zeroed w Hs) as (Hr & Hw & _).
      rewrite Hr, Hw.
      destruct (IH cs (world_after (run env (body i) zeroed w))) as (H1 & H2 & H3).
      rewrite H1. repeat split; assumption.
Qed.

(** C9.  Any pointer argument of a wrapper may be null, not only [output].
    Whichever of the pointer arguments are null, the wrapper forwards them as
    they are, null for null, and reads or writes through no pointer at all. *)
Theorem wrappers_forward_null :
  forall (World : Type) (env : action -> World -> Z * World)
         (cs : statics) (w : World),
    (forall (n1 n2 n3 n4 : bool)
            (layer_shell surface output : ptr) (layer : Z) (namespace : ptr),
        run env (create_layer_surface (or_null n1 layer_shell) (or_null n2 surface)
                   (or_null n3 output) layer (or_null n4 namespace)) cs w
        = forwarded env
            (zwlr_layer_shell_v1_get_layer_surface (or_null n1 layer_shell)
               (or_null n2 surface) (or_null n3 output) layer (or_null n4 namespace))
            cs w)
    /\ (forall (n : bool) (shm : ptr) (fd size : Z),
          run env (create_shm_pool (or_null n shm) fd size) cs w
          = forwarded env (wl_shm_create_pool (or_null n shm) fd size) cs w)
    /\ (forall (n : bool) (pool : ptr) (offset width height stride format : Z),
          run env (create_buffer_from_pool (or_null n pool)
                     offset width height stride format) cs w
          = forwarded env
              (wl_shm_pool_create_buffer (or_null n pool)
                 offset width height stride format) cs w)
    /\ (forall (L : Linkage) (i : invocation) (a : ptr) (v : Z),
          ~ In (Deref a) (performed (run env (body i) cs w))
          /\ ~ In (Assign a v) (performed (run env (body i) cs w))).
Proof.
  intros World env cs w.
  split; [ | split; [ | split]]; intros.
  - apply run_Call_Return.
  - apply run_Call_Return.
  - apply run_Call_Return.
  - pose proof (body_shape i) as Hs.
    split; intros H;
      destruct (shape_performs_calls env (body i) cs w Hs _ H) as [c Hc];
      discriminate Hc.
Qed.

(** C10.  The numeric parameters are signed 32-bit.  A negative [size], and
    a negative [offset], [width], [height] or [stride], is taken as any other
    value of the type: it reaches the library call unchanged, with no check
    of sign or range in between. *)
Theorem wrappers_forward_negative :
  forall (World : Type) (env : action -> World -> Z * World)
         (cs : statics) (w : World),
    (forall (shm : ptr) (fd size : Z),
        int32_t_ok size = true -> size < 0 ->
        run env (create_shm_pool shm fd size) cs w
        = forwarded env (wl_shm_create_pool shm fd size) cs w)
    /\ (forall (pool : ptr) (offset width height stride format : Z),
          int32_t_ok offset = true -> int32_t_ok width = true ->
          int32_t_ok height = true -> int32_t_ok stride = true ->
          offset < 0 \/ width < 0 \/ height < 0 \/ stride < 0 ->
          run env (create_buffer_from_pool pool offset width height stride format) cs w
          = forwarded env
              (wl_shm_pool_create_buffer pool offset width height stride format) cs w).
Proof.
  intros World env cs w. split; intros; apply run_Call_Return.
Qed.

(** ** Series of invocations *)

(** X1.  A series of invocations performs library calls and nothing else,
    and exactly as many of them as it holds wrapper invocations: one request
    per wrapper invocation, none per accessor invocation. *)
Theorem session_one_call_per_wrapper :
  forall (L : Linkage) (World : Type) (env : action -> World -> Z * World)
         (calls : list invocation) (cs : statics) (w : World),
    Forall (fun a => exists c : extcall, a = Call c)
           (session_performed env calls cs w)
    /\ List.length (session_performed env calls cs w)
      = List.length (filter is_wrapper calls).
Proof.
  intros L World env calls.
  induction calls as [ | i rest IH]; intros cs w.
  - split; [constructor | reflexivity].
  - destruct i; simpl;
      match goal with
      | |- context [session_performed env rest ?c ?v] =>
          destruct (IH c v) as [Hall Hlen]
      end;
      (split; [repeat constructor; eauto | now rewrite ?Hlen]).
Qed.

(** X2.  The accessors are transparent.  Striking every accessor invocation
    out of a series changes nothing else: the same actions are performed,
    the statics and the surroundings end up the same, and the wrappers
    return the same values. *)
Theorem session_accessors_transparent :
  forall (L : Linkage) (World : Type) (env : action -> World -> Z * World)
         (calls : list invocation) (cs : statics) (w : World),
    session_performed env (filter is_wrapper calls) cs w
      = session_performed env calls cs w
    /\ snd (session env (filter is_wrapper calls) cs w)
      = snd (session env calls cs w)
    /\ fst (session env (filter is_wrapper calls) cs w)
      = wrapper_results calls (fst (session env calls cs w)).
Proof.
  intros L World env calls.
  induction calls as [ | i rest IH]; intros cs w.
  - repeat split.
  - unfold wrapper_results in *.
    destruct i; simpl;
      match goal with
      | |- context [session_performed env rest ?c ?v] =>
          destruct (IH c v) as (Hp & Hs & Hr)
      end;
      rewrite ?Hp, ?Hs, ?Hr; repeat split.
Qed.

(** X3.  Where the descriptors were linked matters to the accessors' results
    only.  In any two images a series performs the same actions, leaves the
    same statics and surroundings, and has its wrappers return the same
    values. *)
Theorem session_independent_of_linkage :
  forall (L1 L2 : Linkage) (World : Type) (env : action -> World -> Z * World)
         (calls : list invocation) (cs : statics) (w : World),
    session_performed (L := L1) env calls cs w
      = session_performed (L := L2) env calls cs w
    /\ snd (session (L := L1) env calls cs w)
      = snd (session (L := L2) env calls cs w)
    /\ wrapper_results calls (fst (session (L := L1) env calls cs w))
      = wrapper_results calls (fst (session (L := L2) env calls cs w)).
Proof.
  intros L1 L2 World env calls.
  induction calls as [ | i rest IH]; intros cs w.
  - repeat split.
  - unfold wrapper_results in *.
    destruct i; simpl;
      match goal with
      | |- context [session_performed (L := L1) env rest ?c ?v] =>
          destruct (IH c v) as (Hp & Hs & Hr)
      end;
      rewrite ?Hp, ?Hs, ?Hr; repeat split.
Qed.

(** X4.  What a series asks of the library is fixed by the invocations
    alone.  Whatever the library answers, a null to an earlier request
    included, and whatever the state, the same series performs the same
    actions in the same order: no wrapper skips or alters its request on
    account of what came before. *)
Theorem session_requests_fixed_by_invocations :
  forall (L1 L2 : Linkage) (World1 World2 : Type)
         (env1 : action -> World1 -> Z * World1)
         (env2 : action -> World2 -> Z * World2)
         (calls : list invocation)
         (cs1 cs2 : statics) (w1 : World1) (w2 : World2),
    session_performed (L := L1) env1 calls cs1 w1
      = session_performed (L := L2) env2 calls cs2 w2.
Proof.
  intros L1 L2 World1 World2 env1 env2 calls.
  induction calls as [ | i rest IH]; intros cs1 cs2 w1 w2.
  - reflexivity.
  - destruct i; simpl; f_equal; apply IH.
Qed.

(** ** Bodies the statements rule out *)

(** A wrapper that closed the descriptor once the pool exists would show it
    in what it performed. *)
Example closing_wrapper_told_apart :
  performed
    (run scripted
       (Do (Call (wl_shm_create_pool 16 3 4096))
           (fun pool => Do (Close 3) (fun _ => Return pool)))
       zeroed [24; 0])
  = [Call (wl_shm_create_pool 16 3 4096); Close 3].
Proof. reflexivity. Qed.

(** An accessor that cached its answer in a static would leave the statics
    changed. *)
Example caching_accessor_told_apart :
  statics_after
    (run scripted
       (Do (SetStatic "cached" 4202496) (fun _ => Return 4202496))
       zeroed [])
    "cached"%string
  = 4202496.
Proof. reflexivity. Qed.

(** A wrapper that looked at its handle before the call would show the
    read. *)
Example checking_wrapper_told_apart :
  performed
    (run scripted
       (Do (Deref 16)
           (fun v => if v =? 0 then Return NULL
                     else Do (Call (wl_shm_create_pool 16 3 4096)) Return))
       zeroed [0; 24])
  = [Deref 16].
Proof. reflexivity. Qed.

(** ** A session at concrete inputs *)

(** The descriptor, a layer surface on the default output in layer 1, a pool
    and a buffer, against a library that answers 40, 48 and then null. *)
Example session_example :
  session (L := example_layout) scripted
    [invoke_get_zwlr_layer_shell_v1_interface;
     invoke_create_layer_surface 8 16 NULL 1 4198400;
     invoke_create_shm_pool 32 3 16384;
     invoke_create_buffer_from_pool 48 0 64 64 256 0]
    zeroed [40; 48; NULL]
  = ([4202496; 40; 48; NULL], (zeroed, [])).
Proof. reflexivity. Qed.

(** ** The statements at concrete inputs *)

Lemma example_layout_nonnull :
  forall s : wl_interface_symbol, @address_of example_layout s <> NULL.
Proof.
  intros []; discriminate.
Qed.

Lemma example_layout_distinct :
  forall s t : wl_interface_symbol,
    @address_of example_layout s = @address_of example_layout t -> s = t.
Proof.
  intros [] []; intros H; try reflexivity; discriminate H.
Qed.

(** In the example image the layer-shell accessor returns 4202496, not null,
    now and after the surroundings have moved on; likewise the other three. *)
Lemma descriptor_accessors_stable_nonnull_witness :
  (forall s : wl_interface_symbol, @address_of example_layout s <> NULL)
  /\ ((returned (run scripted (@get_zwlr_layer_shell_v1_interface example_layout) zeroed [])
        = 4202496
      /\ returned (run scripted (@get_zwlr_layer_shell_v1_interface example_layout)
                     (set_static zeroed "n" 1) [5])
        = returned (run scripted (@get_zwlr_layer_shell_v1_interface example_layout) zeroed [])
      /\ returned (run scripted (@get_zwlr_layer_shell_v1_interface example_layout) zeroed [])
        <> NULL)
     /\ (returned (run scripted (@get_zwlr_layer_surface_v1_interface example_layout) zeroed [])
        = 4202536
      /\ returned (run scripted (@get_zwlr_layer_surface_v1_interface example_layout)
                     (set_static zeroed "n" 1) [5])
        = returned (run scripted (@get_zwlr_layer_surface_v1_interface example_layout) zeroed [])
      /\ returned (run scripted (@get_zwlr_layer_surface_v1_interface example_layout) zeroed [])
        <> NULL)
     /\ (returned (run scripted (@get_zxdg_output_manager_v1_interface example_layout) zeroed [])
        = 4202576
      /\ returned (run scripted (@get_zxdg_output_manager_v1_interface example_layout)
                     (set_static zeroed "n" 1) [5])
        = returned (run scripted (@get_zxdg_output_manager_v1_interface example_layout) zeroed [])
      /\ returned (run scripted (@get_zxdg_output_manager_v1_interface example_layout) zeroed [])
        <> NULL)
     /\ (returned (run scripted (@get_zxdg_output_v1_interface example_layout) zeroed [])
        = 4202616
      /\ returned (run scripted (@get_zxdg_output_v1_interface example_layout)
                     (set_static zeroed "n" 1) [5])
        = returned (run scripted (@get_zxdg_output_v1_interface example_layout) zeroed [])
      /\ returned (run scripted (@get_zxdg_output_v1_interface example_layout) zeroed [])
        <> NULL)).
Proof.
  split.
  - intros []; discriminate.
  - exact (descriptor_accessors_stable_nonnull example_layout example_layout_nonnull
             (list Z) scripted scripted zeroed (set_static zeroed "n" 1) [] [5]).
Defined.

(** In the example image the four accessors return 4202496, 4202536, 4202576
    and 4202616. *)
Lemma descriptor_accessors_pairwise_distinct_witness :
  (forall s t : wl_interface_symbol,
      @address_of example_layout s = @address_of example_layout t -> s = t)
  /\ (returned (run scripted (@get_zwlr_layer_shell_v1_interface example_layout) zeroed [])
       <> returned (run scripted (@get_zwlr_layer_surface_v1_interface example_layout) zeroed [5])
     /\ returned (run scripted (@get_zwlr_layer_shell_v1_interface example_layout) zeroed [])
       <> returned (run scripted (@get_zxdg_output_manager_v1_interface example_layout) zeroed [5])
     /\ returned (run scripted (@get_zwlr_layer_shell_v1_interface example_layout) zeroed [])
       <> returned (run scripted (@get_zxdg_output_v1_interface example_layout) zeroed [5])
     /\ returned (run scripted (@get_zwlr_layer_surface_v1_interface example_layout) zeroed [])
       <> returned (run scripted (@get_zxdg_output_manager_v1_interface example_layout) zeroed [5])
     /\ returned (run scripted (@get_zwlr_layer_surface_v1_interface example_layout) zeroed [])
       <> returned (run scripted (@get_zxdg_output_v1_interface example_layout) zeroed [5])
     /\ returned (run scripted (@get_zxdg_output_manager_v1_interface example_layout) zeroed [])
       <> returned (run scripted (@get_zxdg_output_v1_interface example_layout) zeroed [5])).
Proof.
  split.
  - intros [] []; intros H; try reflexivity; discriminate H.
  - exact (descriptor_accessors_pairwise_distinct example_layout example_layout_distinct
             (list Z) scripted scripted zeroed zeroed [] [5]).
Defined.

(** A pool of size -4096 and a buffer at offset -16 with stride -256: both
    requests go out with those very numbers. *)
Lemma wrappers_forward_negative_witness :
  (int32_t_ok (-4096) = true /\ -4096 < 0
   /\ run scripted (create_shm_pool 16 3 (-4096)) zeroed [24]
     = Outcome 24 zeroed [] [Call (wl_shm_create_pool 16 3 (-4096))])
  /\ (int32_t_ok (-16) = true /\ int32_t_ok 64 = true
     /\ int32_t_ok 64 = true /\ int32_t_ok (-256) = true
     /\ (-16 < 0 \/ 64 < 0 \/ 64 < 0 \/ -256 < 0)
     /\ run scripted (create_buffer_from_pool 24 (-16) 64 64 (-256) 0) zeroed [32]
       = Outcome 32 zeroed [] [Call (wl_shm_pool_create_buffer 24 (-16) 64 64 (-256) 0)]).
Proof.
  split.
  - split; [reflexivity | split; [lia | ]].
    apply (proj1 (wrappers_forward_negative (list Z) scripted zeroed [24]) 16 3 (-4096));
      [reflexivity | lia].
  - repeat (split; [reflexivity | ]).
    split; [left; lia | ].
    apply (proj2 (wrappers_forward_negative (list Z) scripted zeroed [32])
             24 (-16) 64 64 (-256) 0);
      [reflexivity | reflexivity | reflexivity | reflexivity | left; lia].
Defined.
